(** * Joint constraints of Phobos (joints.py)

    A shallow embedding of [deriveJointType], [getJointConstraints],
    [getJointConstraint], [setJointConstraints] and the [execute] methods of
    [DefineJointConstraintsOperator] and [AttachMotorOperator].

    Modelling conventions.
    - A Python float is the rational [Q] it denotes; [==] and [!=] on
      floats are [Qeq_bool] and its negation. [math.pi] is the double
      closest to pi, which is the dyadic rational [math_pi] below.
    - The [min_*] and [max_*] fields of Blender's limit constraints are C
      [float]s: an assignment rounds the Python float to binary32 ([f32]),
      and reading the field back gives the rounded value. [math.radians]
      rounds to binary64 ([f64]) as CPython does.
    - A Blender object is an armature object, as the code requires of
      [joint]: a record of its phobostype, the direction vector of its
      single bone ([joint.data.bones[0].vector]), the constraint collection
      of its single pose bone ([joint.pose.bones[0].constraints], an ordered
      list) and its custom properties ([joint[key]], a [gmap]). Objects
      without a pose (meshes), on which the code raises, are not modelled.
    - The host state touched by the code (object mode, active object and the
      text written by [print] and [warnings.warn]) is a record [Host].
    - [bpy.ops.pose.constraint_add] appends a constraint with Blender's
      default settings at the end of the collection of the (active) object.
    - [mathutils.Vector.normalized] is a parameter [normalized]. *)

From Stdlib Require Import QArith Qabs String List.
From stdpp Require Import base gmap strings.
Import ListNotations.

Open Scope Q_scope.

(** ** Floating-point formats *)

(** [n / d] rounded to the nearest integer, ties to even ([n >= 0], [d > 0]). *)
Definition round_half_even (n d : Z) : Z :=
  let q := (n / d)%Z in
  let r := (n mod d)%Z in
  match Z.compare (2 * r) d with
  | Lt => q
  | Gt => (q + 1)%Z
  | Eq => if Z.even q then q else (q + 1)%Z
  end.

(** Rounding to nearest, ties to even, into the binary format with [prec]
    significand bits and exponents [emin .. emax], subnormals included.  A
    magnitude that rounds to [2^(emax+1)] or beyond is infinity, which is
    represented by [2^(emax+1)] with the sign of [x]. *)
Definition round_binary (prec emin emax : Z) (x : Q) : Q :=
  let n := Z.abs (Qnum x) in
  let d := Zpos (Qden x) in
  if Z.eqb n 0 then 0 else
  let e0 := (Z.log2 n - Z.log2 d)%Z in
  (* 2^e <= |x| < 2^(e+1) *)
  let e := if (if Z.leb 0 e0 then Z.leb (d * 2 ^ e0) n else Z.leb d (n * 2 ^ (- e0)))
           then e0 else (e0 - 1)%Z in
  (* the weight of the last significand bit *)
  let s := (Z.max e emin - (prec - 1))%Z in
  let m := if Z.leb 0 s then round_half_even n (d * 2 ^ s)
           else round_half_even (n * 2 ^ (- s)) d in
  let a := if Z.leb 0 s then inject_Z (m * 2 ^ s) else Qmake m (Z.to_pos (2 ^ (- s))) in
  let a := if Qle_bool (inject_Z (2 ^ (emax + 1))) a then inject_Z (2 ^ (emax + 1)) else a in
  if Z.ltb (Qnum x) 0 then - a else a.

(** C [float] (binary32) and C [double] (binary64). *)
Definition f32 : Q -> Q := round_binary 24 (-126) 127.
Definition f64 : Q -> Q := round_binary 53 (-1022) 1023.

(** ** Data model *)

(** Three-component vectors ([mathutils.Vector] of length 3). *)
Definition Vec3 : Type := (Q * Q * Q)%type.

(** A [LIMIT_LOCATION] constraint with the fields the code reads or writes. *)
Module LimitLocation.
Record t := mk {
  use_min_x : bool; use_min_y : bool; use_min_z : bool;
  use_max_x : bool; use_max_y : bool; use_max_z : bool;
  min_x : Q; min_y : Q; min_z : Q;
  max_x : Q; max_y : Q; max_z : Q;
  owner_space : string
}.

(** A constraint as [constraint_add(type='LIMIT_LOCATION')] creates it. *)
Definition default : t :=
  mk false false false false false false 0 0 0 0 0 0 "WORLD".

(** Attribute assignments [cloc.<field> = v]; the float fields store [f32 v]. *)
Definition set_use_min_x b c :=
  mk b (use_min_y c) (use_min_z c) (use_max_x c) (use_max_y c) (use_max_z c)
     (min_x c) (min_y c) (min_z c) (max_x c) (max_y c) (max_z c) (owner_space c).
Definition set_use_min_y b c :=
  mk (use_min_x c) b (use_min_z c) (use_max_x c) (use_max_y c) (use_max_z c)
     (min_x c) (min_y c) (min_z c) (max_x c) (max_y c) (max_z c) (owner_space c).
Definition set_use_min_z b c :=
  mk (use_min_x c) (use_min_y c) b (use_max_x c) (use_max_y c) (use_max_z c)
     (min_x c) (min_y c) (min_z c) (max_x c) (max_y c) (max_z c) (owner_space c).
Definition set_use_max_x b c :=
  mk (use_min_x c) (use_min_y c) (use_min_z c) b (use_max_y c) (use_max_z c)
     (min_x c) (min_y c) (min_z c) (max_x c) (max_y c) (max_z c) (owner_space c).
Definition set_use_max_y b c :=
  mk (use_min_x c) (use_min_y c) (use_min_z c) (use_max_x c) b (use_max_z c)
     (min_x c) (min_y c) (min_z c) (max_x c) (max_y c) (max_z c) (owner_space c).
Definition set_use_max_z b c :=
  mk (use_min_x c) (use_min_y c) (use_min_z c) (use_max_x c) (use_max_y c) b
     (min_x c) (min_y c) (min_z c) (max_x c) (max_y c) (max_z c) (owner_space c).
Definition set_min_y v c :=
  mk (use_min_x c) (use_min_y c) (use_min_z c) (use_max_x c) (use_max_y c) (use_max_z c)
     (min_x c) (f32 v) (min_z c) (max_x c) (max_y c) (max_z c) (owner_space c).
Definition set_max_y v c :=
  mk (use_min_x c) (use_min_y c) (use_min_z c) (use_max_x c) (use_max_y c) (use_max_z c)
     (min_x c) (min_y c) (min_z c) (max_x c) (f32 v) (max_z c) (owner_space c).
Definition set_owner_space s c :=
  mk (use_min_x c) (use_min_y c) (use_min_z c) (use_max_x c) (use_max_y c) (use_max_z c)
     (min_x c) (min_y c) (min_z c) (max_x c) (max_y c) (max_z c) s.
End LimitLocation.

(** A [LIMIT_ROTATION] constraint with the fields the code reads or writes. *)
Module LimitRotation.
Record t := mk {
  use_limit_x : bool; use_limit_y : bool; use_limit_z : bool;
  min_x : Q; min_y : Q; min_z : Q;
  max_x : Q; max_y : Q; max_z : Q;
  owner_space : string
}.

(** A constraint as [constraint_add(type='LIMIT_ROTATION')] creates it. *)
Definition default : t := mk false false false 0 0 0 0 0 0 "WORLD".

(** Attribute assignments [crot.<field> = v]; the float fields store [f32 v]. *)
Definition set_use_limit_x b c :=
  mk b (use_limit_y c) (use_limit_z c) (min_x c) (min_y c) (min_z c)
     (max_x c) (max_y c) (max_z c) (owner_space c).
Definition set_use_limit_y b c :=
  mk (use_limit_x c) b (use_limit_z c) (min_x c) (min_y c) (min_z c)
     (max_x c) (max_y c) (max_z c) (owner_space c).
Definition set_use_limit_z b c :=
  mk (use_limit_x c) (use_limit_y c) b (min_x c) (min_y c) (min_z c)
     (max_x c) (max_y c) (max_z c) (owner_space c).
Definition set_min_x v c :=
  mk (use_limit_x c) (use_limit_y c) (use_limit_z c) (f32 v) (min_y c) (min_z c)
     (max_x c) (max_y c) (max_z c) (owner_space c).
Definition set_min_y v c :=
  mk (use_limit_x c) (use_limit_y c) (use_limit_z c) (min_x c) (f32 v) (min_z c)
     (max_x c) (max_y c) (max_z c) (owner_space c).
Definition set_min_z v c :=
  mk (use_limit_x c) (use_limit_y c) (use_limit_z c) (min_x c) (min_y c) v
     (max_x c) (max_y c) (max_z c) (owner_space c).
Definition set_max_x v c :=
  mk (use_limit_x c) (use_limit_y c) (use_limit_z c) (min_x c) (min_y c) (min_z c)
     (f32 v) (max_y c) (max_z c) (owner_space c).
Definition set_max_y v c :=
  mk (use_limit_x c) (use_limit_y c) (use_limit_z c) (min_x c) (min_y c) (min_z c)
     (max_x c) (f32 v) (max_z c) (owner_space c).
Definition set_max_z v c :=
  mk (use_limit_x c) (use_limit_y c) (use_limit_z c) (min_x c) (min_y c) (min_z c)
     (max_x c) (max_y c) (f32 v) (owner_space c).
Definition set_owner_space s c :=
  mk (use_limit_x c) (use_limit_y c) (use_limit_z c) (min_x c) (min_y c) (min_z c)
     (max_x c) (max_y c) (max_z c) s.
End LimitRotation.

(** Some of Blender's other bone constraint kinds; the code only skips them. *)
Inductive OtherKind :=
| IK | COPY_LOCATION | COPY_ROTATION | LIMIT_SCALE | LIMIT_DISTANCE | CHILD_OF | DAMPED_TRACK.

Definition other_kind_name (k : OtherKind) : string :=
  match k with
  | IK => "IK" | COPY_LOCATION => "COPY_LOCATION" | COPY_ROTATION => "COPY_ROTATION"
  | LIMIT_SCALE => "LIMIT_SCALE" | LIMIT_DISTANCE => "LIMIT_DISTANCE"
  | CHILD_OF => "CHILD_OF" | DAMPED_TRACK => "DAMPED_TRACK"
  end.

(** An entry of a bone's constraint collection, tagged by [c.type]. *)
Inductive Constraint :=
| CLoc (c : LimitLocation.t)      (* c.type == 'LIMIT_LOCATION' *)
| CRot (c : LimitRotation.t)      (* c.type == 'LIMIT_ROTATION' *)
| COther (k : OtherKind).

(** Values stored in custom properties. *)
Inductive pyval :=
| VFloat (q : Q)
| VStr (s : string)
| VBool (b : bool).

(** An armature object as the code sees it. *)
Record Object := mkObject {
  name : string;
  phobostype : string;
  bone_vector : Vec3;               (* joint.data.bones[0].vector *)
  constraints : list Constraint;    (* joint.pose.bones[0].constraints *)
  props : gmap string pyval         (* joint[key] *)
}.

(** The host state the code touches. *)
Record Host := mkHost {
  mode : string;                    (* bpy.ops.object.mode_set *)
  active : option string;           (* bpy.context.scene.objects.active *)
  out : list string                 (* print and warnings.warn *)
}.

Definition set_constraints (o : Object) cs :=
  mkObject (name o) (phobostype o) (bone_vector o) cs (props o).
Definition set_prop (o : Object) k v :=
  mkObject (name o) (phobostype o) (bone_vector o) (constraints o) (<[k := v]> (props o)).
Definition set_mode (h : Host) m := mkHost m (active h) (out h).
Definition set_active (h : Host) a := mkHost (mode h) (Some a) (out h).
Definition print (h : Host) s := mkHost (mode h) (active h) (out h ++ [s]).

Global Instance Q_eq_dec : EqDecision Q.
Proof. intros [a b] [c d]. solve_decision. Defined.
Global Instance LimitLocation_eq_dec : EqDecision LimitLocation.t.
Proof. solve_decision. Defined.
Global Instance LimitRotation_eq_dec : EqDecision LimitRotation.t.
Proof. solve_decision. Defined.
Global Instance OtherKind_eq_dec : EqDecision OtherKind.
Proof. solve_decision. Defined.
Global Instance Constraint_eq_dec : EqDecision Constraint.
Proof. solve_decision. Defined.

(** Forward application, to write a run of attribute assignments in the
    order of the source. *)
Notation "x |> f" := (f x) (at level 40, left associativity, only parsing).

(** ** The constraint collection *)

(** [c.type] *)
Definition ctype (c : Constraint) : string :=
  match c with
  | CLoc _ => "LIMIT_LOCATION"
  | CRot _ => "LIMIT_ROTATION"
  | COther k => other_kind_name k
  end.

(** [getJointConstraint(joint, ctype)]: the last entry of type [t]. *)
Definition getJointConstraint (cs : list Constraint) (t : string) : option Constraint :=
  fold_left (fun con c => if String.eqb (ctype c) t then Some c else con) cs None.

(** [constraints.remove(c)] *)
Fixpoint remove (c : Constraint) (cs : list Constraint) : list Constraint :=
  match cs with
  | [] => []
  | d :: cs' => if decide (c = d) then cs' else d :: remove c cs'
  end.

(** [for c in constraints: constraints.remove(c)].  The collection is a
    linked list whose Python iterator steps to the next entry before it
    yields the current one, so the loop visits the entries of the original
    collection in order. *)
Fixpoint remove_each (todo cs : list Constraint) : list Constraint :=
  match todo with
  | [] => cs
  | c :: todo' => remove_each todo' (remove c cs)
  end.

Definition remove_all (cs : list Constraint) : list Constraint := remove_each cs cs.

(** Mutation through the reference returned by [getJointConstraint]: the
    last entry of type [t] is replaced by its image under [f]. *)
Fixpoint update_first (t : string) (f : Constraint -> Constraint) (cs : list Constraint) :=
  match cs with
  | [] => []
  | c :: cs' => if String.eqb (ctype c) t then f c :: cs' else c :: update_first t f cs'
  end.

Definition update_last (t : string) (f : Constraint -> Constraint) (cs : list Constraint) :=
  rev (update_first t f (rev cs)).

Definition on_loc (f : LimitLocation.t -> LimitLocation.t) (c : Constraint) :=
  match c with CLoc l => CLoc (f l) | d => d end.
Definition on_rot (f : LimitRotation.t -> LimitRotation.t) (c : Constraint) :=
  match c with CRot r => CRot (f r) | d => d end.

(** [bpy.ops.pose.constraint_add(type='LIMIT_LOCATION')], then
    [cloc = getJointConstraint(joint, 'LIMIT_LOCATION')] and the assignments
    [f] to [cloc]. *)
Definition add_loc (f : LimitLocation.t -> LimitLocation.t) (cs : list Constraint) :=
  update_last "LIMIT_LOCATION" (on_loc f) (cs ++ [CLoc LimitLocation.default]).

(** The same for [type='LIMIT_ROTATION'] and [crot]. *)
Definition add_rot (f : LimitRotation.t -> LimitRotation.t) (cs : list Constraint) :=
  update_last "LIMIT_ROTATION" (on_rot f) (cs ++ [CRot LimitRotation.default]).

(** ** setJointConstraints *)

Section Templates.
Import LimitLocation LimitRotation.
Variables lower upper : Q.

(** [cloc.use_min_x = True] ... [cloc.use_max_z = True] *)
Definition lock_all_loc (c : LimitLocation.t) :=
  c |> set_use_min_x true |> set_use_min_y true |> set_use_min_z true
    |> set_use_max_x true |> set_use_max_y true |> set_use_max_z true.

Definition revolute_loc (c : LimitLocation.t) :=
  c |> lock_all_loc |> LimitLocation.set_owner_space "LOCAL".
Definition revolute_rot (c : LimitRotation.t) :=
  c |> set_use_limit_x true |> set_min_x 0 |> set_max_x 0
    |> set_use_limit_y true |> LimitRotation.set_min_y lower |> LimitRotation.set_max_y upper
    |> set_use_limit_z true |> set_min_z 0 |> set_max_z 0
    |> LimitRotation.set_owner_space "LOCAL".

Definition continuous_loc := revolute_loc.
Definition continuous_rot (c : LimitRotation.t) :=
  c |> set_use_limit_x true |> set_min_x 0 |> set_max_x 0
    |> set_use_limit_z true |> set_min_z 0 |> set_max_z 0
    |> LimitRotation.set_owner_space "LOCAL".

Definition prismatic_loc (c : LimitLocation.t) :=
  let c := lock_all_loc c in
  let c := if Qeq_bool lower upper
           then c |> set_use_min_y false |> set_use_max_y false
           else c |> LimitLocation.set_min_y lower |> LimitLocation.set_max_y upper in
  c |> LimitLocation.set_owner_space "LOCAL".
(** [crot] with all three axes limited to [(0, 0)] *)
Definition lock_all_rot (c : LimitRotation.t) :=
  c |> set_use_limit_x true |> set_min_x 0 |> set_max_x 0
    |> set_use_limit_y true |> LimitRotation.set_min_y 0 |> LimitRotation.set_max_y 0
    |> set_use_limit_z true |> set_min_z 0 |> set_max_z 0
    |> LimitRotation.set_owner_space "LOCAL".
Definition prismatic_rot := lock_all_rot.

Definition fixed_loc := revolute_loc.
Definition fixed_rot := lock_all_rot.

Definition planar_loc (c : LimitLocation.t) :=
  c |> set_use_min_y true |> set_use_max_y true |> LimitLocation.set_owner_space "LOCAL".
Definition planar_rot := lock_all_rot.
End Templates.

(** The branch on [jointtype] inside [if joint.phobostype == 'link']. *)
Definition install (h : Host) (jointtype : string) (lower upper : Q) (cs : list Constraint)
  : Host * list Constraint :=
  if String.eqb jointtype "revolute" then
    (h, cs |> add_loc revolute_loc |> add_rot (revolute_rot lower upper))
  else if String.eqb jointtype "continuous" then
    (h, cs |> add_loc continuous_loc |> add_rot continuous_rot)
  else if String.eqb jointtype "prismatic" then
    (h, cs |> add_loc (prismatic_loc lower upper) |> add_rot prismatic_rot)
  else if String.eqb jointtype "fixed" then
    (h, cs |> add_loc fixed_loc |> add_rot fixed_rot)
  else if String.eqb jointtype "floating" then
    (h, cs)
  else if String.eqb jointtype "planar" then
    (h, cs |> add_loc planar_loc |> add_rot planar_rot)
  else
    (print h "Error: Unknown joint type", cs).

(** [setJointConstraints(joint, jointtype, lower, upper)].  Blender's
    [mode_set] and [constraint_add] act on the active object; the callers
    make [joint] the active object first, and the model applies them to
    [joint]. *)
Definition setJointConstraints (h : Host) (joint : Object) (jointtype : string) (lower upper : Q)
  : Host * Object :=
  let h := set_mode h "POSE" in
  let joint := set_constraints joint (remove_all (constraints joint)) in
  if String.eqb (phobostype joint) "link" then
    let '(h, cs) := install h jointtype lower upper (constraints joint) in
    let joint := set_prop (set_constraints joint cs) "joint/type" (VStr jointtype) in
    (set_mode h "OBJECT", joint)
  else (h, joint).

(** ** deriveJointType *)

Definition b2n (b : bool) : nat := if b then 1 else 0.
(** [sum] of a list of three booleans *)
Definition sum3 (f : bool * bool * bool) : nat :=
  let '(x, y, z) := f in (b2n x + b2n y + b2n z)%nat.

(** The [cloc] list computed from a [LIMIT_LOCATION] constraint. *)
Definition loc_flags (c : LimitLocation.t) : bool * bool * bool :=
  (LimitLocation.use_min_x c && Qeq_bool (LimitLocation.min_x c) (LimitLocation.max_x c),
   LimitLocation.use_min_y c && Qeq_bool (LimitLocation.min_y c) (LimitLocation.max_y c),
   LimitLocation.use_min_z c && Qeq_bool (LimitLocation.min_z c) (LimitLocation.max_z c)).

(** The [crot] list computed from a [LIMIT_ROTATION] constraint. *)
Definition rot_flags (c : LimitRotation.t) : bool * bool * bool :=
  (LimitRotation.use_limit_x c
     && (negb (Qeq_bool (LimitRotation.min_x c) 0) || negb (Qeq_bool (LimitRotation.max_x c) 0)),
   LimitRotation.use_limit_y c
     && (negb (Qeq_bool (LimitRotation.min_y c) 0) || negb (Qeq_bool (LimitRotation.max_y c) 0)),
   LimitRotation.use_limit_z c
     && (negb (Qeq_bool (LimitRotation.min_z c) 0) || negb (Qeq_bool (LimitRotation.max_z c) 0))).

(** [ncrot] for the rotation constraint [limrot]. *)
Definition rot_count (c : LimitRotation.t) : nat :=
  sum3 (LimitRotation.use_limit_x c, LimitRotation.use_limit_y c, LimitRotation.use_limit_z c).

(** One iteration of the scan over the constraints: the pair [(cloc, limrot)]
    ([crot] is [rot_flags] of [limrot]). *)
Definition scan_step (acc : option (bool * bool * bool) * option LimitRotation.t)
    (c : Constraint) :=
  match c with
  | CLoc l => (Some (loc_flags l), snd acc)
  | CRot r => (fst acc, Some r)
  | COther _ => acc
  end.

Definition scan (cs : list Constraint) := fold_left scan_step cs (None, None).

(** The decision table on [cloc] and [limrot]. *)
Definition classify (cloc : option (bool * bool * bool)) (limrot : option LimitRotation.t)
  : string :=
  match cloc with
  | None => "floating"
  | Some fl =>
      let ncloc := sum3 fl in
      if Nat.eqb ncloc 3 then
        match limrot with
        | Some r =>
            if Nat.eqb (rot_count r) 3 then
              if Nat.ltb 0 (sum3 (rot_flags r)) then "revolute" else "fixed"
            else if Nat.eqb (rot_count r) 2 then "continuous"
            else "floating"
        | None => "floating"
        end
      else if Nat.eqb ncloc 2 then "prismatic"
      else if Nat.eqb ncloc 1 then "planar"
      else "floating"
  end.

(** [v != jtype] for a stored property value [v] and a string [jtype]. *)
Definition pyval_ne_str (v : pyval) (s : string) : bool :=
  match v with VStr s' => negb (String.eqb s' s) | _ => true end.

(** [deriveJointType(joint, adjust)]: the host state, the object (its
    [joint/type] rewritten in the adjusting case) and [(jtype, crot)]. *)
Definition deriveJointType (adjust : bool) (h : Host) (joint : Object)
  : Host * Object * (string * option (bool * bool * bool)) :=
  let '(cloc, limrot) := scan (constraints joint) in
  let crot := option_map rot_flags limrot in
  let jtype := classify cloc limrot in
  let '(h, joint) :=
    match props joint !! "joint/type" with
    | Some v =>
        if pyval_ne_str v jtype then
          let h := print h ("Type of joint " ++ name joint ++ " does not match constraints!")%string in
          if adjust then
            let joint := set_prop joint "joint/type" (VStr jtype) in
            (print h ("Changed type of joint'" ++ name joint ++ " to " ++ jtype ++ "'.")%string, joint)
          else (h, joint)
        else (h, joint)
    | None => (h, joint)
    end in
  (h, joint, (jtype, crot)).

(** ** getJointConstraints *)

Inductive exn :=
| JointTypeError (msg : string)   (* raise Exception("JointTypeError: ...") *)
| AttributeError.                 (* attribute of None *)

Inductive result :=
| Ok (axis : option Vec3) (limits : option (list Q))
| Raise (e : exn).

Definition under_defined (joint : Object) : exn :=
  JointTypeError ("JointTypeError: under-defined constraints in joint (" ++ name joint ++ ").")%string.

(** Truth value of [crot]: [None] is false, a list of three flags is true. *)
Definition truthy {A} (o : option A) : bool := match o with Some _ => true | None => false end.

(** The [freeloc] list of [getJointConstraints]: min == max with both
    bounds active. *)
Definition freeloc (c : LimitLocation.t) : bool * bool * bool :=
  (LimitLocation.use_min_x c && LimitLocation.use_max_x c
     && Qeq_bool (LimitLocation.min_x c) (LimitLocation.max_x c),
   LimitLocation.use_min_y c && LimitLocation.use_max_y c
     && Qeq_bool (LimitLocation.min_y c) (LimitLocation.max_y c),
   LimitLocation.use_min_z c && LimitLocation.use_max_z c
     && Qeq_bool (LimitLocation.min_z c) (LimitLocation.max_z c)).

Definition b2q (b : bool) : Q := if b then 1 else 0.

Section Extraction.
(** [mathutils.Vector.normalized] *)
Variable normalized : Vec3 -> Vec3.

(** [getJointConstraints(joint)] *)
Definition getJointConstraints (h : Host) (joint : Object) : Host * Object * result :=
  let '(h, joint, (jt, crot)) := deriveJointType true h joint in
  let r :=
    if String.eqb jt "floating" || String.eqb jt "fixed" then Ok None None
    else if (String.eqb jt "revolute" || String.eqb jt "continuous") && truthy crot then
      match getJointConstraint (constraints joint) "LIMIT_ROTATION", crot with
      | Some (CRot c), Some (f0, f1, f2) =>
          let axis := normalized (bone_vector joint) in
          let limits :=
            if f0 then Some [LimitRotation.min_x c; LimitRotation.max_x c]
            else if f1 then Some [LimitRotation.min_y c; LimitRotation.max_y c]
            else if f2 then Some [LimitRotation.min_z c; LimitRotation.max_z c]
            else None in
          Ok (Some axis) limits
      | _, _ => Raise AttributeError
      end
    else
      match getJointConstraint (constraints joint) "LIMIT_LOCATION" with
      | Some (CLoc c) =>
          let freeloc := freeloc c in
          let '(f0, f1, f2) := freeloc in
          if String.eqb jt "prismatic" then
            if Nat.eqb (sum3 freeloc) 2 then
              let axis := normalized (bone_vector joint) in
              let limits :=
                if f0 then Some [LimitLocation.min_x c; LimitLocation.max_x c]
                else if f1 then Some [LimitLocation.min_y c; LimitLocation.max_y c]
                else if f2 then Some [LimitLocation.min_z c; LimitLocation.max_z c]
                else None in
              Ok (Some axis) limits
            else Raise (under_defined joint)
          else if String.eqb jt "planar" then
            if Nat.eqb (sum3 freeloc) 1 then
              let axis := (b2q f0, b2q f1, b2q f2) in
              let limits :=
                if f0 then Some [LimitLocation.min_y c; LimitLocation.max_y c;
                                 LimitLocation.min_z c; LimitLocation.max_z c]
                else if f1 then Some [LimitLocation.min_x c; LimitLocation.max_x c;
                                      LimitLocation.min_z c; LimitLocation.max_z c]
                else if f2 then Some [LimitLocation.min_x c; LimitLocation.max_x c;
                                      LimitLocation.min_y c; LimitLocation.max_y c]
                else None in
              Ok (Some axis) limits
            else Raise (under_defined joint)
          else Ok None None
      | _ => Raise (under_defined joint)
      end in
  (h, joint, r).
End Extraction.

(** ** Operators *)

(** [math.pi]: the double nearest to pi, 884279719003555 / 2^48. *)
Definition math_pi : Q := 884279719003555 # 281474976710656.

(** [degToRad = Py_MATH_PI / 180.0] of CPython's math module. *)
Definition deg_to_rad : Q := f64 (math_pi / 180).

(** [math.radians(x)]: [x * degToRad] in double precision. *)
Definition radians (x : Q) : Q := f64 (x * deg_to_rad).

(** The properties of a [DefineJointConstraintsOperator]. *)
Record DefineJointConstraints := mkDefine {
  passive : bool;
  degrees : bool;
  joint_type : string;
  lower : Q;
  upper : Q;
  maxeffort : Q;
  maxvelocity : Q
}.

(** The loop body of [DefineJointConstraintsOperator.execute]. *)
Definition define_one (self : DefineJointConstraints) (lo up : Q) (h : Host) (link : Object)
  : Host * Object :=
  let h := set_active h (name link) in
  let '(h, link) := setJointConstraints h link (joint_type self) lo up in
  let link :=
    if negb (String.eqb (joint_type self) "fixed") then
      set_prop (set_prop link "joint/maxeffort" (VFloat (maxeffort self)))
               "joint/maxvelocity" (VFloat (maxvelocity self))
    else link in
  let link := if passive self then set_prop link "joint/passive" (VBool true) else link in
  (h, link).

Fixpoint define_loop (self : DefineJointConstraints) (lo up : Q) (h : Host) (sel : list Object)
  : Host * list Object :=
  match sel with
  | [] => (h, [])
  | link :: sel' =>
      let '(h, link) := define_one self lo up h link in
      let '(h, links) := define_loop self lo up h sel' in
      (h, link :: links)
  end.

(** [DefineJointConstraintsOperator.execute]: the host state, the selected
    objects after the call, and the returned status. *)
Definition define_execute (self : DefineJointConstraints) (h : Host) (selected : list Object)
  : Host * list Object * string :=
  let '(lo, up) :=
    if degrees self then (radians (lower self), radians (upper self))
    else (lower self, upper self) in
  let '(h, links) := define_loop self lo up h selected in
  (h, links, "FINISHED").

(** The properties of an [AttachMotorOperator]. *)
Record AttachMotor := mkAttach {
  P : Q; I : Q; D : Q;
  vmax : Q;
  taumax : Q;
  motortype : string
}.

(** The loop body of [AttachMotorOperator.execute]. *)
Definition attach_one (self : AttachMotor) (joint : Object) : Object :=
  if String.eqb (phobostype joint) "link" then
    let joint :=
      if String.eqb (motortype self) "PID" then
        joint |> (fun j => set_prop j "motor/p" (VFloat (P self)))
              |> (fun j => set_prop j "motor/i" (VFloat (I self)))
              |> (fun j => set_prop j "motor/d" (VFloat (D self)))
      else joint in
    joint |> (fun j => set_prop j "motor/maxSpeed" (VFloat (vmax self * 2 * math_pi)))
          |> (fun j => set_prop j "motor/maxEffort" (VFloat (taumax self)))
          |> (fun j => set_prop j "motor/type" (VStr (motortype self)))
  else joint.

(** [AttachMotorOperator.execute] *)
Definition attach_execute (self : AttachMotor) (selected : list Object) : list Object * string :=
  (map (attach_one self) selected, "FINISHED").

(** ** Concrete inputs *)

(** A host in object mode with nothing printed yet. *)
Definition host0 : Host := mkHost "OBJECT" None [].

(** A link whose bone points along Y, carrying an IK constraint and an
    unconfigured rotation limit. *)
Definition link0 : Object :=
  mkObject "link0" "link" (0, 1, 0) [COther IK; CRot LimitRotation.default] ∅.

(** The identity, a normalisation for unit vectors such as [(0, 1, 0)]. *)
Definition unit_normalized (v : Vec3) : Vec3 := v.

(** A link whose location limit has all three min bounds active and equal
    to the max bounds, but no max bound active, and whose rotation limit
    leaves Y a range of (0, 1). *)
Definition half_bounded_loc : LimitLocation.t :=
  LimitLocation.mk true true true false false false 0 0 0 0 0 0 "LOCAL".
Definition y_range_rot : LimitRotation.t :=
  LimitRotation.mk true true true 0 0 0 0 1 0 "LOCAL".
Definition link_half_bounded : Object :=
  mkObject "link1" "link" (0, 1, 0) [CLoc half_bounded_loc; CRot y_range_rot] ∅.

(** A link whose location limit has the X and Y min bounds active (equal to
    the max values) and no max bound active: classified prismatic, with no
    axis locked for the extraction step. *)
Definition two_min_loc : LimitLocation.t :=
  LimitLocation.mk true true false false false false 0 0 0 0 0 0 "LOCAL".
Definition link_two_min : Object :=
  mkObject "link2" "link" (0, 1, 0) [CLoc two_min_loc] ∅.

(** An armature whose phobostype is not link, and a host in which it is
    the active object. *)
Definition armature0 : Object :=
  mkObject "armature0" "undefined" (0, 0, 1) [CRot LimitRotation.default] ∅.
Definition host_armature0 : Host := set_active host0 "armature0".

(** The keys [DefineJointConstraintsOperator] may write. *)
Definition joint_keys : list string :=
  ["joint/type"; "joint/maxeffort"; "joint/maxvelocity"; "joint/passive"].

(** The per-object effect of [DefineJointConstraintsOperator.execute]. *)
Definition define_effect (self : DefineJointConstraints) (o o' : Object) : Prop :=
  name o' = name o /\ phobostype o' = phobostype o /\ bone_vector o' = bone_vector o /\
  (phobostype o = "link" -> props o' !! "joint/type" = Some (VStr (joint_type self))) /\
  (phobostype o <> "link" -> props o' !! "joint/type" = props o !! "joint/type") /\
  (joint_type self <> "fixed" ->
     props o' !! "joint/maxeffort" = Some (VFloat (maxeffort self)) /\
     props o' !! "joint/maxvelocity" = Some (VFloat (maxvelocity self))) /\
  (passive self = true -> props o' !! "joint/passive" = Some (VBool true)) /\
  (passive self = false -> props o' !! "joint/passive" = props o !! "joint/passive") /\
  (forall k, ~ In k joint_keys -> props o' !! k = props o !! k).

(** The keys [AttachMotorOperator] may write. *)
Definition motor_keys : list string :=
  ["motor/p"; "motor/i"; "motor/d"; "motor/maxSpeed"; "motor/maxEffort"; "motor/type"].

(** * Properties *)

(** ** Helper lemmas *)

(** Reading a key back after a run of [set_prop]s with other keys on top. *)
Ltac lookup_tac :=
  rewrite ?lookup_insert_ne by discriminate; first [apply lookup_insert_eq | reflexivity].

Lemma remove_each_self (cs : list Constraint) : remove_each cs cs = [].
Proof.
  induction cs as [|c cs IH]; simpl; [done|].
  rewrite decide_True by done. exact IH.
Qed.

Lemma remove_all_nil (cs : list Constraint) : remove_all cs = [].
Proof. apply remove_each_self. Qed.

(** The constraints [install] produces do not depend on the host state. *)
Lemma install_cs (h h' : Host) T lo up cs :
  snd (install h T lo up cs) = snd (install h' T lo up cs).
Proof.
  unfold install.
  repeat match goal with |- context [String.eqb ?a ?b] => destruct (String.eqb a b) end;
  reflexivity.
Qed.

(** [setJointConstraints] on a link, with the removal loop evaluated. *)
Lemma setJointConstraints_link (h : Host) (joint : Object) T lo up :
  phobostype joint = "link" ->
  setJointConstraints h joint T lo up =
    (set_mode (fst (install (set_mode h "POSE") T lo up [])) "OBJECT",
     mkObject (name joint) "link" (bone_vector joint)
       (snd (install (set_mode h "POSE") T lo up [])) (<[ "joint/type" := VStr T ]> (props joint))).
Proof.
  intros Hl. unfold setJointConstraints, set_constraints, set_prop. simpl.
  rewrite remove_all_nil, Hl. simpl.
  destruct (install (set_mode h "POSE") T lo up []) as [h1 cs]. reflexivity.
Qed.

Lemma Qeq_bool_0_0 : Qeq_bool 0 0 = true.
Proof. reflexivity. Qed.

Lemma f32_0 : f32 0 = 0.
Proof. reflexivity. Qed.

(** The derived type depends on the constraints only. *)
Lemma deriveJointType_type adjust (h : Host) (joint : Object) :
  fst (snd (deriveJointType adjust h joint))
  = classify (fst (scan (constraints joint))) (snd (scan (constraints joint))).
Proof.
  unfold deriveJointType. destruct (scan (constraints joint)) as [cloc limrot]. simpl.
  destruct (props joint !! "joint/type"); [|reflexivity].
  destruct (pyval_ne_str _ _); [|reflexivity]. destruct adjust; reflexivity.
Qed.

(** ** Synthesis then classification *)

(** C1 (amended).  On a link, [setJointConstraints(joint, T, lower, upper)]
    followed by [deriveJointType(joint)] yields [T] for [T] in {continuous,
    fixed} and all [lower], [upper].  For [T] = revolute it yields revolute
    unless both limits store as 0 in the single-precision fields of the
    rotation limit ([f32 lower = f32 upper = 0]): the template is then the
    fixed one and the result is [fixed].  For [T] = prismatic it yields
    prismatic unless [lower != upper] but both store as the same
    single-precision value: the Y axis then counts as locked too and the
    result is [fixed]. *)
Theorem synthesize_then_classify (h h' : Host) (joint : Object) (T : string) (lower upper : Q) :
  phobostype joint = "link" ->
  In T ["revolute"; "continuous"; "prismatic"; "fixed"] ->
  fst (snd (deriveJointType false h' (snd (setJointConstraints h joint T lower upper))))
  = if String.eqb T "revolute" && Qeq_bool (f32 lower) 0 && Qeq_bool (f32 upper) 0 then "fixed"
    else if String.eqb T "prismatic" && negb (Qeq_bool lower upper)
            && Qeq_bool (f32 lower) (f32 upper) then "fixed"
    else T.
Proof.
  intros Hl HT. rewrite setJointConstraints_link by exact Hl.
  rewrite deriveJointType_type. simpl.
  destruct HT as [<-|[<-|[<-|[<-|[]]]]]; cbn -[f32]; rewrite ?f32_0, ?Qeq_bool_0_0; cbn -[f32];
    [destruct (Qeq_bool (f32 lower) 0), (Qeq_bool (f32 upper) 0); reflexivity
    |reflexivity
    |destruct (Qeq_bool lower upper) eqn:E; cbn -[f32]; rewrite ?Qeq_bool_0_0; cbn -[f32];
       [reflexivity|destruct (Qeq_bool (f32 lower) (f32 upper)); reflexivity]
    |reflexivity].
Qed.

Lemma synthesize_then_classify_witness :
  phobostype link0 = "link" /\ In "prismatic" ["revolute"; "continuous"; "prismatic"; "fixed"] /\
  fst (snd (deriveJointType false host0 (snd (setJointConstraints host0 link0 "prismatic" (-1#10) (1#10)))))
  = "prismatic".
Proof.
  split; [reflexivity|]. split; [simpl; tauto|].
  etransitivity;
    [exact (synthesize_then_classify host0 host0 link0 "prismatic" (-1#10) (1#10)
              eq_refl (or_intror (or_intror (or_introl eq_refl))))
    |reflexivity].
Defined.

(** C1 (counterexample).  A revolute joint synthesized with [lower = upper = 0]
    (so [lower <= upper]) is classified as fixed, not revolute. *)
Lemma synthesize_revolute_zero_range_not_revolute :
  fst (snd (deriveJointType false host0 (snd (setJointConstraints host0 link0 "revolute" 0 0))))
  <> "revolute".
Proof. vm_compute. discriminate. Qed.

(** ** Re-running synthesis *)

(** C3.  Running [setJointConstraints] a second time with the same
    arguments leaves the object (constraint collection and custom
    properties) exactly as the first run left it; and the first step of
    each run removes every existing constraint, so the collection after a
    run is the per-type template alone ([install] from an empty
    collection) on a link, and empty on any other object. *)
Theorem setJointConstraints_idempotent (h : Host) (joint : Object) (T : string) (lower upper : Q) :
  let '(h1, j1) := setJointConstraints h joint T lower upper in
  snd (setJointConstraints h1 j1 T lower upper) = j1 /\
  constraints j1 = (if String.eqb (phobostype joint) "link"
                    then snd (install host0 T lower upper []) else []).
Proof.
  unfold setJointConstraints, set_constraints, set_prop. cbn -[remove_all install].
  rewrite remove_all_nil.
  destruct (String.eqb (phobostype joint) "link") eqn:Hl.
  - destruct (install (set_mode h "POSE") T lower upper []) as [h1 cs] eqn:Ei. cbn -[remove_all install].
    rewrite remove_all_nil, Hl.
    assert (Ecs : cs = snd (install host0 T lower upper [])).
    { change cs with (snd (h1, cs)). rewrite <- Ei. apply install_cs. }
    destruct (install (set_mode (set_mode h1 "OBJECT") "POSE") T lower upper []) as [h2 cs2] eqn:Ei2.
    assert (Ecs2 : cs2 = snd (install host0 T lower upper [])).
    { change cs2 with (snd (h2, cs2)). rewrite <- Ei2. apply install_cs. }
    cbn -[remove_all install]. rewrite insert_insert_eq, Ecs2, <- Ecs. split; reflexivity.
  - cbn -[remove_all install]. rewrite remove_all_nil, Hl. split; reflexivity.
Qed.

(** ** Unknown joint types *)

Definition known_types : list string :=
  ["revolute"; "continuous"; "prismatic"; "fixed"; "floating"; "planar"].

Lemma install_unknown (h : Host) T lo up cs :
  ~ In T known_types -> install h T lo up cs = (print h "Error: Unknown joint type", cs).
Proof.
  intros HT. unfold install.
  repeat match goal with
  | |- context [String.eqb T ?s] =>
      destruct (String.eqb T s) eqn:E; revert E;
      [intros E; apply String.eqb_eq in E; subst; exfalso; apply HT; simpl; tauto|intros _]
  end.
  reflexivity.
Qed.

(** C9.  On a link, [setJointConstraints] with a joint type outside
    {revolute, continuous, prismatic, fixed, floating, planar} returns
    normally (the embedding has no exception for it), installs no
    constraint (the collection is empty afterwards) and prints
    "Error: Unknown joint type" as the one line it writes. *)
Theorem setJointConstraints_unknown_logged (h : Host) (joint : Object) (T : string) (lower upper : Q) :
  phobostype joint = "link" ->
  ~ In T known_types ->
  let '(h1, j1) := setJointConstraints h joint T lower upper in
  constraints j1 = [] /\ out h1 = out h ++ ["Error: Unknown joint type"].
Proof.
  intros Hl HT. rewrite setJointConstraints_link by exact Hl.
  rewrite install_unknown by exact HT. split; reflexivity.
Qed.

Lemma setJointConstraints_unknown_logged_witness :
  phobostype link0 = "link" /\ ~ In "hinge" known_types /\
  (let '(h1, j1) := setJointConstraints host0 link0 "hinge" 0 0 in
   constraints j1 = [] /\ out h1 = out host0 ++ ["Error: Unknown joint type"]).
Proof.
  split; [reflexivity|]. split; [cbv; intuition discriminate|].
  apply setJointConstraints_unknown_logged; [reflexivity|cbv; intuition discriminate].
Defined.

(** C10.  On a link, [setJointConstraints] with an unknown joint type still
    changes the link: the pre-existing constraints are gone and
    [joint/type] holds the unknown type string; so a link that had any
    constraint before the call is not left unchanged. *)
Theorem setJointConstraints_unknown_mutates (h : Host) (joint : Object) (T : string) (lower upper : Q) :
  phobostype joint = "link" ->
  ~ In T known_types ->
  let '(h1, j1) := setJointConstraints h joint T lower upper in
  constraints j1 = [] /\
  props j1 = <[ "joint/type" := VStr T ]> (props joint) /\
  (constraints joint <> [] -> j1 <> joint).
Proof.
  intros Hl HT. rewrite setJointConstraints_link by exact Hl.
  rewrite install_unknown by exact HT. cbn.
  split; [reflexivity|]. split; [reflexivity|].
  intros Hne Heq. apply Hne. rewrite <- Heq. reflexivity.
Qed.

Lemma setJointConstraints_unknown_mutates_witness :
  phobostype link0 = "link" /\ ~ In "hinge" known_types /\
  (let '(h1, j1) := setJointConstraints host0 link0 "hinge" 0 0 in
   constraints j1 = [] /\
   props j1 = <[ "joint/type" := VStr "hinge" ]> (props link0) /\
   (constraints link0 <> [] -> j1 <> link0)).
Proof.
  split; [reflexivity|]. split; [cbv; intuition discriminate|].
  apply setJointConstraints_unknown_mutates; [reflexivity|cbv; intuition discriminate].
Defined.

(** ** Reading the constraints back *)

Lemma scan_snd_fold (cs : list Constraint) a o :
  snd a = match o with Some (CRot r) => Some r | _ => None end ->
  snd (fold_left scan_step cs a)
  = match fold_left (fun con c => if String.eqb (ctype c) "LIMIT_ROTATION" then Some c else con) cs o
    with Some (CRot r) => Some r | _ => None end.
Proof.
  revert a o. induction cs as [|c cs IH]; intros a o Ha; simpl; [exact Ha|].
  apply IH. destruct c as [l|r|k]; simpl; [exact Ha|reflexivity|].
  destruct k; exact Ha.
Qed.

Lemma scan_fst_fold (cs : list Constraint) a o :
  fst a = match o with Some (CLoc l) => Some (loc_flags l) | _ => None end ->
  fst (fold_left scan_step cs a)
  = match fold_left (fun con c => if String.eqb (ctype c) "LIMIT_LOCATION" then Some c else con) cs o
    with Some (CLoc l) => Some (loc_flags l) | _ => None end.
Proof.
  revert a o. induction cs as [|c cs IH]; intros a o Ha; simpl; [exact Ha|].
  apply IH. destruct c as [l|r|k]; simpl; [reflexivity|exact Ha|].
  destruct k; exact Ha.
Qed.

(** The rotation constraint the classifier reads is the one
    [getJointConstraint(joint, 'LIMIT_ROTATION')] returns. *)
Lemma scan_rot (cs : list Constraint) :
  snd (scan cs) = match getJointConstraint cs "LIMIT_ROTATION" with Some (CRot r) => Some r | _ => None end.
Proof. apply scan_snd_fold. reflexivity. Qed.

(** The same for the location constraint. *)
Lemma scan_loc (cs : list Constraint) :
  fst (scan cs) = match getJointConstraint cs "LIMIT_LOCATION" with Some (CLoc l) => Some (loc_flags l) | _ => None end.
Proof. apply scan_fst_fold. reflexivity. Qed.

(** What [deriveJointType] returns and what it keeps of the object. *)
Lemma deriveJointType_spec adjust (h h' : Host) (joint joint' : Object) jt crot :
  deriveJointType adjust h joint = (h', joint', (jt, crot)) ->
  jt = classify (fst (scan (constraints joint))) (snd (scan (constraints joint))) /\
  crot = option_map rot_flags (snd (scan (constraints joint))) /\
  constraints joint' = constraints joint /\
  bone_vector joint' = bone_vector joint /\
  name joint' = name joint.
Proof.
  unfold deriveJointType. destruct (scan (constraints joint)) as [cloc limrot].
  destruct (props joint !! "joint/type") as [v|];
    [destruct (pyval_ne_str v _); [destruct adjust|]|];
    intros E; injection E; intros; subst; cbn; repeat split.
Qed.

(** A classification other than floating needs a location constraint. *)
Lemma classify_not_floating cloc limrot :
  classify cloc limrot <> "floating" -> exists fl, cloc = Some fl.
Proof. destruct cloc as [fl|]; [eauto|]. simpl. congruence. Qed.

(** Revolute and continuous need a rotation constraint. *)
Lemma classify_rotational cloc limrot :
  In (classify cloc limrot) ["revolute"; "continuous"] -> exists r, limrot = Some r.
Proof.
  destruct limrot as [r|]; [eauto|]. intros H. exfalso.
  destruct cloc as [fl|]; simpl in H; [|intuition discriminate].
  destruct (Nat.eqb (sum3 fl) 3); [simpl in H; intuition discriminate|].
  destruct (Nat.eqb (sum3 fl) 2); [simpl in H; intuition discriminate|].
  destruct (Nat.eqb (sum3 fl) 1); simpl in H; intuition discriminate.
Qed.

Lemma getJointConstraint_rot_shape (cs : list Constraint) c :
  getJointConstraint cs "LIMIT_ROTATION" = Some c -> exists r, c = CRot r.
Proof.
  unfold getJointConstraint.
  assert (H : forall o, (forall c, o = Some c -> exists r, c = CRot r) ->
    forall c, fold_left (fun con c => if String.eqb (ctype c) "LIMIT_ROTATION" then Some c else con) cs o = Some c ->
    exists r, c = CRot r).
  { induction cs as [|d cs IH]; intros o Ho; simpl; [exact Ho|].
    apply IH. destruct d as [l|r|k]; simpl; [exact Ho| |destruct k; exact Ho].
    intros c' E; injection E; intros <-; eauto. }
  apply H. discriminate.
Qed.

Lemma getJointConstraint_loc_shape (cs : list Constraint) c :
  getJointConstraint cs "LIMIT_LOCATION" = Some c -> exists l, c = CLoc l.
Proof.
  unfold getJointConstraint.
  assert (H : forall o, (forall c, o = Some c -> exists l, c = CLoc l) ->
    forall c, fold_left (fun con c => if String.eqb (ctype c) "LIMIT_LOCATION" then Some c else con) cs o = Some c ->
    exists l, c = CLoc l).
  { induction cs as [|d cs IH]; intros o Ho; simpl; [exact Ho|].
    apply IH. destruct d as [l|r|k]; simpl; [| exact Ho|destruct k; exact Ho].
    intros c' E; injection E; intros <-; eauto. }
  apply H. discriminate.
Qed.

(** C5 (amended).  For a link classified revolute or continuous,
    [getJointConstraints] raises nothing: it returns the normalised bone
    direction as axis and, as limits, the (min, max) pair of the first
    rotation axis whose flag is set, or no limits when no flag is set.  A
    revolute link always has a flag set; a continuous link may have none,
    and then the axis is present while the limits are absent. *)
Theorem getJointConstraints_rotational (normalized : Vec3 -> Vec3) (h : Host) (joint : Object) :
  In (fst (snd (deriveJointType true h joint))) ["revolute"; "continuous"] ->
  exists r,
    getJointConstraint (constraints joint) "LIMIT_ROTATION" = Some (CRot r) /\
    snd (getJointConstraints normalized h joint) =
      Ok (Some (normalized (bone_vector joint)))
         (match rot_flags r with
          | (true, _, _) => Some [LimitRotation.min_x r; LimitRotation.max_x r]
          | (false, true, _) => Some [LimitRotation.min_y r; LimitRotation.max_y r]
          | (false, false, true) => Some [LimitRotation.min_z r; LimitRotation.max_z r]
          | (false, false, false) => None
          end) /\
    (fst (snd (deriveJointType true h joint)) = "revolute" -> rot_flags r <> (false, false, false)).
Proof.
  intros HT.
  destruct (deriveJointType true h joint) as [[h1 j1] [jt crot]] eqn:Ed.
  destruct (deriveJointType_spec _ _ _ _ _ _ _ Ed) as (Ejt & Ecrot & Ecs & Ebv & En).
  simpl in HT |- *. rewrite Ejt in HT.
  destruct (classify_rotational _ _ HT) as [r Er].
  assert (Eg : getJointConstraint (constraints joint) "LIMIT_ROTATION" = Some (CRot r)).
  { rewrite scan_rot in Er.
    destruct (getJointConstraint (constraints joint) "LIMIT_ROTATION") as [c|] eqn:Eg; [|discriminate].
    destruct (getJointConstraint_rot_shape _ _ Eg) as [r' ->]. congruence. }
  exists r. split; [exact Eg|].
  rewrite Er in Ecrot. simpl in Ecrot. subst crot.
  rewrite <- Ejt in HT.
  assert (Hrev : jt = "revolute" -> rot_flags r <> (false, false, false)).
  { intros Ej Ef. rewrite Ej, Er in Ejt.
    cbv beta iota zeta delta [classify] in Ejt.
    destruct (fst (scan (constraints joint))) as [fl|]; [|discriminate].
    destruct (Nat.eqb (sum3 fl) 3).
    - destruct (Nat.eqb (rot_count r) 3); [rewrite Ef in Ejt; discriminate|].
      destruct (Nat.eqb (rot_count r) 2); discriminate.
    - destruct (Nat.eqb (sum3 fl) 2); [discriminate|].
      destruct (Nat.eqb (sum3 fl) 1); discriminate. }
  split; [|exact Hrev].
  unfold getJointConstraints. rewrite Ed. rewrite Ecs, Eg, Ebv.
  destruct HT as [<-|[<-|[]]]; cbn;
    destruct (rot_flags r) as [[f0 f1] f2]; destruct f0, f1, f2; reflexivity.
Qed.

Lemma getJointConstraints_rotational_witness :
  In (fst (snd (deriveJointType true host0 (snd (setJointConstraints host0 link0 "continuous" 0 0)))))
     ["revolute"; "continuous"] /\
  exists r,
    getJointConstraint (constraints (snd (setJointConstraints host0 link0 "continuous" 0 0))) "LIMIT_ROTATION"
      = Some (CRot r) /\
    snd (getJointConstraints unit_normalized host0 (snd (setJointConstraints host0 link0 "continuous" 0 0))) =
      Ok (Some (unit_normalized (bone_vector (snd (setJointConstraints host0 link0 "continuous" 0 0)))))
         (match rot_flags r with
          | (true, _, _) => Some [LimitRotation.min_x r; LimitRotation.max_x r]
          | (false, true, _) => Some [LimitRotation.min_y r; LimitRotation.max_y r]
          | (false, false, true) => Some [LimitRotation.min_z r; LimitRotation.max_z r]
          | (false, false, false) => None
          end) /\
    (fst (snd (deriveJointType true host0 (snd (setJointConstraints host0 link0 "continuous" 0 0))))
       = "revolute" -> rot_flags r <> (false, false, false)).
Proof.
  assert (H : In (fst (snd (deriveJointType true host0 (snd (setJointConstraints host0 link0 "continuous" 0 0)))))
                 ["revolute"; "continuous"]).
  { vm_compute. right. left. reflexivity. }
  split; [exact H|].
  exact (getJointConstraints_rotational unit_normalized host0 _ H).
Defined.

(** C5 (counterexample).  Right after [setJointConstraints(joint,
    'continuous', 0, 0)] the link is classified continuous, no rotation
    flag is set, and [getJointConstraints] raises nothing: it returns an
    axis without limits. *)
Lemma continuous_extraction_axis_without_limits :
  let j1 := snd (setJointConstraints host0 link0 "continuous" 0 0) in
  fst (snd (deriveJointType true host0 j1)) = "continuous" /\
  snd (snd (deriveJointType true host0 j1)) = Some (false, false, false) /\
  snd (getJointConstraints unit_normalized host0 j1) = Ok (Some (0, 1, 0)) None.
Proof. vm_compute. repeat split. Qed.

(** C6.  For a link classified planar, [getJointConstraints] reads the
    link's location limit [c] and its [freeloc] flags (the axes whose
    min == max with both bounds active: the "free" axes of the spec's
    extraction step, two of which a prismatic link must have).  With
    exactly one such axis it returns the unit vector along it and the
    (min, max) pairs of the other two axes, in the order X free:
    (minY, maxY, minZ, maxZ); Y free: (minX, maxX, minZ, maxZ); Z free:
    (minX, maxX, minY, maxY).  Otherwise it raises the under-defined
    constraints error. *)
Theorem getJointConstraints_planar (normalized : Vec3 -> Vec3) (h : Host) (joint : Object) :
  fst (snd (deriveJointType true h joint)) = "planar" ->
  exists c,
    getJointConstraint (constraints joint) "LIMIT_LOCATION" = Some (CLoc c) /\
    snd (getJointConstraints normalized h joint) =
      match freeloc c with
      | (true, false, false) =>
          Ok (Some (1, 0, 0)) (Some [LimitLocation.min_y c; LimitLocation.max_y c;
                                    LimitLocation.min_z c; LimitLocation.max_z c])
      | (false, true, false) =>
          Ok (Some (0, 1, 0)) (Some [LimitLocation.min_x c; LimitLocation.max_x c;
                                    LimitLocation.min_z c; LimitLocation.max_z c])
      | (false, false, true) =>
          Ok (Some (0, 0, 1)) (Some [LimitLocation.min_x c; LimitLocation.max_x c;
                                    LimitLocation.min_y c; LimitLocation.max_y c])
      | _ => Raise (under_defined joint)
      end.
Proof.
  intros HT.
  destruct (deriveJointType true h joint) as [[h1 j1] [jt crot]] eqn:Ed.
  destruct (deriveJointType_spec _ _ _ _ _ _ _ Ed) as (Ejt & Ecrot & Ecs & Ebv & En).
  simpl in HT.
  assert (Hnf : classify (fst (scan (constraints joint))) (snd (scan (constraints joint))) <> "floating")
    by (rewrite <- Ejt, HT; discriminate).
  destruct (classify_not_floating _ _ Hnf) as [fl Efl].
  rewrite scan_loc in Efl.
  destruct (getJointConstraint (constraints joint) "LIMIT_LOCATION") as [c0|] eqn:Eg; [|discriminate].
  destruct (getJointConstraint_loc_shape _ _ Eg) as [c ->].
  exists c. split; [reflexivity|].
  unfold getJointConstraints. rewrite Ed. cbn -[freeloc]. rewrite HT. cbn -[freeloc].
  rewrite Ecs, Eg. unfold under_defined. rewrite En.
  destruct (freeloc c) as [[f0 f1] f2]; destruct f0, f1, f2; reflexivity.
Qed.

Lemma getJointConstraints_planar_witness :
  fst (snd (deriveJointType true host0 (snd (setJointConstraints host0 link0 "planar" 0 0)))) = "planar" /\
  exists c,
    getJointConstraint (constraints (snd (setJointConstraints host0 link0 "planar" 0 0))) "LIMIT_LOCATION"
      = Some (CLoc c) /\
    snd (getJointConstraints unit_normalized host0 (snd (setJointConstraints host0 link0 "planar" 0 0))) =
      match freeloc c with
      | (true, false, false) =>
          Ok (Some (1, 0, 0)) (Some [LimitLocation.min_y c; LimitLocation.max_y c;
                                    LimitLocation.min_z c; LimitLocation.max_z c])
      | (false, true, false) =>
          Ok (Some (0, 1, 0)) (Some [LimitLocation.min_x c; LimitLocation.max_x c;
                                    LimitLocation.min_z c; LimitLocation.max_z c])
      | (false, false, true) =>
          Ok (Some (0, 0, 1)) (Some [LimitLocation.min_x c; LimitLocation.max_x c;
                                    LimitLocation.min_y c; LimitLocation.max_y c])
      | _ => Raise (under_defined (snd (setJointConstraints host0 link0 "planar" 0 0)))
      end.
Proof.
  assert (H : fst (snd (deriveJointType true host0 (snd (setJointConstraints host0 link0 "planar" 0 0))))
              = "planar") by (vm_compute; reflexivity).
  split; [exact H|].
  exact (getJointConstraints_planar unit_normalized host0 _ H).
Defined.

(** ** Extraction on synthesized links, and the classifier's lock test *)

(** C2 (code_bug).  After [setJointConstraints(joint, 'prismatic', -0.1,
    0.1)] on a link whose bone points along Y, [getJointConstraints]
    returns the bone direction as axis but the limits (0, 0) of the locked
    X axis, not the (-0.1, 0.1) of the Y axis the joint slides along. *)
Lemma prismatic_extraction_reads_locked_axis :
  snd (getJointConstraints unit_normalized host0
         (snd (setJointConstraints host0 link0 "prismatic" (-1#10) (1#10))))
  = Ok (Some (0, 1, 0)) (Some [0; 0]).
Proof. vm_compute. reflexivity. Qed.

(** C4 (code_bug).  [deriveJointType] counts an axis as locked when its min
    bound is active and min == max, whatever its max bound: a location
    limit with the three min bounds active, no max bound active and
    min == max == 0 counts three locked axes, and with a Y rotation range
    the link is classified revolute (with no axis locked it would be
    floating). *)
Lemma classify_counts_half_bounded_axes :
  loc_flags half_bounded_loc = (true, true, true) /\
  freeloc half_bounded_loc = (false, false, false) /\
  fst (snd (deriveJointType false host0 link_half_bounded)) = "revolute".
Proof. vm_compute. repeat split. Qed.

(** ** Operators *)

Lemma setJointConstraints_props (h : Host) (joint : Object) T lo up :
  props (snd (setJointConstraints h joint T lo up))
  = if String.eqb (phobostype joint) "link"
    then <[ "joint/type" := VStr T ]> (props joint) else props joint.
Proof.
  unfold setJointConstraints, set_constraints, set_prop. cbn -[install].
  destruct (String.eqb (phobostype joint) "link"); [|reflexivity].
  destruct (install _ _ _ _ _). reflexivity.
Qed.

(** C7.  When [DefineJointConstraintsOperator] runs with joint type
    [fixed], no selected object gets [joint/maxeffort] or
    [joint/maxvelocity] written, whatever the [maxeffort] and
    [maxvelocity] inputs: both keys hold afterwards what they held
    before (absent stays absent). *)
Theorem define_execute_fixed_no_effort (self : DefineJointConstraints) (h : Host) (selected : list Object) :
  joint_type self = "fixed" ->
  Forall2 (fun o o' =>
             props o' !! "joint/maxeffort" = props o !! "joint/maxeffort" /\
             props o' !! "joint/maxvelocity" = props o !! "joint/maxvelocity")
          selected (snd (fst (define_execute self h selected))).
Proof.
  intros Hf. unfold define_execute.
  destruct (if degrees self then _ else _) as [lo up].
  destruct (define_loop self lo up h selected) as [h' links] eqn:El. simpl.
  revert h h' links El. induction selected as [|o sel IH]; intros h h' links El.
  - simpl in El. injection El as <- <-. constructor.
  - simpl in El.
    destruct (define_one self lo up h o) as [h1 o1] eqn:E1.
    destruct (define_loop self lo up h1 sel) as [h2 links2] eqn:E2.
    injection El as <- <-. constructor; [|exact (IH _ _ _ E2)].
    unfold define_one in E1.
    destruct (setJointConstraints (set_active h (name o)) o (joint_type self) lo up) as [h3 o3] eqn:E3.
    assert (Hp := setJointConstraints_props (set_active h (name o)) o (joint_type self) lo up).
    rewrite E3 in Hp. simpl in Hp.
    rewrite Hf in E1. simpl in E1.
    destruct (passive self); injection E1 as <- <-; unfold set_prop; simpl;
      rewrite ?lookup_insert_ne by discriminate; rewrite Hp;
      destruct (String.eqb (phobostype o) "link");
      rewrite ?lookup_insert_ne by discriminate; split; reflexivity.
Qed.

Lemma define_execute_fixed_no_effort_witness :
  joint_type (mkDefine true false "fixed" 0 0 5 7) = "fixed" /\
  Forall2 (fun o o' =>
             props o' !! "joint/maxeffort" = props o !! "joint/maxeffort" /\
             props o' !! "joint/maxvelocity" = props o !! "joint/maxvelocity")
          [link0] (snd (fst (define_execute (mkDefine true false "fixed" 0 0 5 7) host0 [link0]))).
Proof.
  split; [reflexivity|]. apply define_execute_fixed_no_effort. reflexivity.
Defined.


(** ** Further properties of the classifier and the extractor *)

Lemma pyval_ne_str_false (v : pyval) (s : string) :
  pyval_ne_str v s = false -> v = VStr s.
Proof.
  destruct v as [q|s'|b]; simpl; try discriminate.
  intros E. apply negb_false_iff, String.eqb_eq in E. subst. reflexivity.
Qed.

(** [deriveJointType] never touches the constraints, the name, the type or
    the bone of the object, and no custom property but [joint/type].  It
    writes nothing and prints nothing when no [joint/type] is stored,
    changes no property when not adjusting, and when adjusting leaves a
    stored [joint/type] equal to the derived type. *)
Theorem deriveJointType_frame (adjust : bool) (h : Host) (joint : Object) :
  let '(h1, j1, (jt, _)) := deriveJointType adjust h joint in
  name j1 = name joint /\ phobostype j1 = phobostype joint /\
  bone_vector j1 = bone_vector joint /\ constraints j1 = constraints joint /\
  (forall k, k <> "joint/type" -> props j1 !! k = props joint !! k) /\
  (props joint !! "joint/type" = None -> props j1 = props joint /\ out h1 = out h) /\
  (adjust = false -> props j1 = props joint) /\
  (adjust = true -> is_Some (props joint !! "joint/type") ->
     props j1 !! "joint/type" = Some (VStr jt)).
Proof.
  unfold deriveJointType. destruct (scan (constraints joint)) as [cloc limrot].
  destruct (props joint !! "joint/type") as [v|] eqn:Ev.
  - destruct (pyval_ne_str v (classify cloc limrot)) eqn:En.
    + destruct adjust; unfold set_prop; cbn;
        do 4 (split; [reflexivity|]);
        (split; [intros k Hk; rewrite ?lookup_insert_ne by congruence; reflexivity|]);
        (split; [intros Hn; discriminate|]);
        split; intros Ha; try discriminate; try reflexivity.
      intros _. apply lookup_insert_eq.
    + cbn. do 4 (split; [reflexivity|]).
      split; [reflexivity|]. split; [intros Hn; discriminate|].
      split; [reflexivity|].
      intros _ _. rewrite Ev. rewrite (pyval_ne_str_false _ _ En). reflexivity.
  - cbn. do 4 (split; [reflexivity|]).
    split; [reflexivity|]. split; [split; reflexivity|].
    split; [reflexivity|]. intros _ [? H]. discriminate.
Qed.

(** [deriveJointType] answers [floating] exactly when the bone has no
    [LIMIT_LOCATION] constraint, or the last one locks no axis, or it locks
    all three while the last [LIMIT_ROTATION] (if any) does not have two or
    three active limits. *)
Theorem deriveJointType_floating (adjust : bool) (h : Host) (joint : Object) :
  fst (snd (deriveJointType adjust h joint)) = "floating" <->
  match getJointConstraint (constraints joint) "LIMIT_LOCATION" with
  | Some (CLoc l) =>
      sum3 (loc_flags l) = 0%nat \/
      (sum3 (loc_flags l) = 3%nat /\
       match getJointConstraint (constraints joint) "LIMIT_ROTATION" with
       | Some (CRot r) => rot_count r <> 2%nat /\ rot_count r <> 3%nat
       | _ => True
       end)
  | _ => True
  end.
Proof.
  rewrite deriveJointType_type, scan_loc, scan_rot.
  destruct (getJointConstraint (constraints joint) "LIMIT_LOCATION") as [c|] eqn:Eg;
    [|simpl; tauto].
  destruct (getJointConstraint_loc_shape _ _ Eg) as [l ->].
  destruct (getJointConstraint (constraints joint) "LIMIT_ROTATION") as [c'|] eqn:Er.
  - destruct (getJointConstraint_rot_shape _ _ Er) as [r ->].
    unfold classify.
    destruct (loc_flags l) as [[a b] c]; destruct (rot_count r) as [|[|[|[|n]]]] eqn:Ec;
      destruct (Nat.ltb 0 (sum3 (rot_flags r)));
      destruct a, b, c; cbn; split; intros H; try discriminate; try reflexivity;
      try lia; try (destruct H as [H|[_ H]]; lia); try tauto.
  - unfold classify.
    destruct (loc_flags l) as [[a b] c]; destruct a, b, c; cbn; split; intros H;
      try discriminate; try reflexivity; try lia; try (destruct H as [H|[_ H]]; lia); tauto.
Qed.

(** For a link classified floating or fixed, [getJointConstraints] raises
    nothing and returns neither axis nor limits. *)
Theorem getJointConstraints_no_dof (normalized : Vec3 -> Vec3) (h : Host) (joint : Object) :
  In (fst (snd (deriveJointType true h joint))) ["floating"; "fixed"] ->
  snd (getJointConstraints normalized h joint) = Ok None None.
Proof.
  intros HT. unfold getJointConstraints.
  destruct (deriveJointType true h joint) as [[h1 j1] [jt crot]]. simpl in HT |- *.
  destruct HT as [<-|[<-|[]]]; reflexivity.
Qed.

Lemma getJointConstraints_no_dof_witness :
  In (fst (snd (deriveJointType true host0 (snd (setJointConstraints host0 link0 "fixed" 0 0)))))
     ["floating"; "fixed"] /\
  snd (getJointConstraints unit_normalized host0 (snd (setJointConstraints host0 link0 "fixed" 0 0)))
  = Ok None None.
Proof.
  assert (H : In (fst (snd (deriveJointType true host0 (snd (setJointConstraints host0 link0 "fixed" 0 0)))))
                 ["floating"; "fixed"]) by (vm_compute; right; left; reflexivity).
  split; [exact H|]. exact (getJointConstraints_no_dof unit_normalized host0 _ H).
Defined.

(** The only exception [getJointConstraints] raises is the under-defined
    constraints error naming the joint, and only for links classified
    prismatic or planar. *)
Theorem getJointConstraints_errors (normalized : Vec3 -> Vec3) (h : Host) (joint : Object) (e : exn) :
  snd (getJointConstraints normalized h joint) = Raise e ->
  e = under_defined joint /\ In (fst (snd (deriveJointType true h joint))) ["prismatic"; "planar"].
Proof.
  unfold getJointConstraints.
  destruct (deriveJointType true h joint) as [[h1 j1] [jt crot]] eqn:Ed.
  destruct (deriveJointType_spec _ _ _ _ _ _ _ Ed) as (Ejt & Ecrot & Ecs & Ebv & En).
  simpl. rewrite Ecs. unfold under_defined. rewrite En.
  destruct (String.eqb jt "floating" || String.eqb jt "fixed") eqn:Eff; [discriminate|].
  destruct ((String.eqb jt "revolute" || String.eqb jt "continuous") && truthy crot) eqn:Erc.
  - (* the rotation branch: [crot] is set, so the classifier saw a rotation limit *)
    destruct crot as [[[f0 f1] f2]|]; [|rewrite andb_false_r in Erc; discriminate].
    rewrite Ecrot in *. rewrite scan_rot in Ecrot.
    destruct (getJointConstraint (constraints joint) "LIMIT_ROTATION") as [c|] eqn:Eg;
      [|discriminate].
    destruct (getJointConstraint_rot_shape _ _ Eg) as [r ->]. discriminate.
  - destruct (getJointConstraint (constraints joint) "LIMIT_LOCATION") as [c|] eqn:Eg.
    + destruct (getJointConstraint_loc_shape _ _ Eg) as [l ->].
      destruct (freeloc l) as [[f0 f1] f2].
      destruct (String.eqb jt "prismatic") eqn:Ep.
      * apply String.eqb_eq in Ep. rewrite Ep.
        destruct (Nat.eqb _ 2); [discriminate|]. intros E. injection E as <-.
        split; [reflexivity|simpl; tauto].
      * destruct (String.eqb jt "planar") eqn:Epl; [|discriminate].
        apply String.eqb_eq in Epl. rewrite Epl.
        destruct (Nat.eqb _ 1); [discriminate|]. intros E. injection E as <-.
        split; [reflexivity|simpl; tauto].
    + (* no location limit: the classifier answered floating *)
      intros _. exfalso.
      rewrite scan_loc, Eg in Ejt. simpl in Ejt. rewrite Ejt in Eff. discriminate.
Qed.

Lemma getJointConstraints_errors_witness :
  snd (getJointConstraints unit_normalized host0 link_two_min) = Raise (under_defined link_two_min) /\
  under_defined link_two_min = under_defined link_two_min /\
  In (fst (snd (deriveJointType true host0 link_two_min))) ["prismatic"; "planar"].
Proof.
  assert (H : snd (getJointConstraints unit_normalized host0 link_two_min)
              = Raise (under_defined link_two_min)) by (vm_compute; reflexivity).
  split; [exact H|]. exact (getJointConstraints_errors unit_normalized host0 _ _ H).
Defined.

(** What [getJointConstraints] returns depends on the constraints, the bone
    and the name of the object only. *)
Lemma getJointConstraints_result (normalized : Vec3 -> Vec3) (h h' : Host) (joint joint' : Object) :
  constraints joint' = constraints joint -> bone_vector joint' = bone_vector joint ->
  name joint' = name joint ->
  snd (getJointConstraints normalized h' joint') = snd (getJointConstraints normalized h joint).
Proof.
  intros Ec Eb En. unfold getJointConstraints.
  destruct (deriveJointType true h joint) as [[h1 j1] [jt crot]] eqn:Ed.
  destruct (deriveJointType true h' joint') as [[h1' j1'] [jt' crot']] eqn:Ed'.
  destruct (deriveJointType_spec _ _ _ _ _ _ _ Ed) as (Ejt & Ecrot & Ecs & Ebv & Enm).
  destruct (deriveJointType_spec _ _ _ _ _ _ _ Ed') as (Ejt' & Ecrot' & Ecs' & Ebv' & Enm').
  rewrite Ec in Ejt', Ecrot'. rewrite <- Ejt in Ejt'. rewrite <- Ecrot in Ecrot'. subst jt' crot'.
  simpl. unfold under_defined. rewrite Ecs, Ecs', Ec, Ebv, Ebv', Eb, Enm, Enm', En. reflexivity.
Qed.

(** [getJointConstraints] of the link [setJointConstraints] leaves,
    computed on a copy without custom properties. *)
Lemma getJointConstraints_after_set (normalized : Vec3 -> Vec3) (h h' : Host) (joint : Object) T lo up :
  phobostype joint = "link" ->
  snd (getJointConstraints normalized h' (snd (setJointConstraints h joint T lo up)))
  = snd (getJointConstraints normalized host0
           (mkObject (name joint) "link" (bone_vector joint) (snd (install host0 T lo up [])) ∅)).
Proof.
  intros Hl. rewrite setJointConstraints_link by exact Hl.
  apply getJointConstraints_result; simpl; [apply install_cs|reflexivity|reflexivity].
Qed.




(** A planar joint synthesized on a link, whatever [lower] and [upper], is
    classified planar, and [getJointConstraints] returns the Y unit vector
    (the one locked axis) with the X and Z limits (0, 0, 0, 0). *)
Theorem planar_round_trip (normalized : Vec3 -> Vec3) (h h' : Host) (joint : Object) (lower upper : Q) :
  phobostype joint = "link" ->
  fst (snd (deriveJointType true h' (snd (setJointConstraints h joint "planar" lower upper)))) = "planar" /\
  snd (getJointConstraints normalized h' (snd (setJointConstraints h joint "planar" lower upper)))
  = Ok (Some (0, 1, 0)) (Some [0; 0; 0; 0]).
Proof.
  intros Hl. split.
  - rewrite deriveJointType_type, setJointConstraints_link by exact Hl. reflexivity.
  - rewrite getJointConstraints_after_set by exact Hl. reflexivity.
Qed.

Lemma planar_round_trip_witness :
  phobostype link0 = "link" /\
  fst (snd (deriveJointType true host0 (snd (setJointConstraints host0 link0 "planar" 1 2)))) = "planar" /\
  snd (getJointConstraints unit_normalized host0 (snd (setJointConstraints host0 link0 "planar" 1 2)))
  = Ok (Some (0, 1, 0)) (Some [0; 0; 0; 0]).
Proof. split; [reflexivity|]. apply planar_round_trip. reflexivity. Defined.

(** On a link, [setJointConstraints] ends in object mode with [joint/type]
    set to the requested type.  For revolute, continuous, prismatic, fixed
    and planar it prints nothing and leaves exactly two constraints, one
    [LIMIT_LOCATION] followed by one [LIMIT_ROTATION], both in the [LOCAL]
    owner space; for floating it prints nothing and leaves none. *)
Theorem setJointConstraints_installs (h : Host) (joint : Object) (T : string) (lower upper : Q) :
  phobostype joint = "link" ->
  let '(h1, j1) := setJointConstraints h joint T lower upper in
  mode h1 = "OBJECT" /\ props j1 !! "joint/type" = Some (VStr T) /\
  (In T ["revolute"; "continuous"; "prismatic"; "fixed"; "planar"] ->
     out h1 = out h /\
     exists l r, constraints j1 = [CLoc l; CRot r] /\
       LimitLocation.owner_space l = "LOCAL" /\ LimitRotation.owner_space r = "LOCAL") /\
  (T = "floating" -> out h1 = out h /\ constraints j1 = []).
Proof.
  intros Hl. rewrite setJointConstraints_link by exact Hl.
  split; [reflexivity|]. split; [apply lookup_insert_eq|]. split.
  - intros HT. destruct HT as [<-|[<-|[<-|[<-|[<-|[]]]]]]; cbn;
      (split; [reflexivity|]); eexists _, _; (split; [reflexivity|]); split; reflexivity.
  - intros ->. split; reflexivity.
Qed.

Lemma setJointConstraints_installs_witness :
  phobostype link0 = "link" /\
  (let '(h1, j1) := setJointConstraints host0 link0 "fixed" 0 0 in
   mode h1 = "OBJECT" /\ props j1 !! "joint/type" = Some (VStr "fixed") /\
   (In "fixed" ["revolute"; "continuous"; "prismatic"; "fixed"; "planar"] ->
      out h1 = out host0 /\
      exists l r, constraints j1 = [CLoc l; CRot r] /\
        LimitLocation.owner_space l = "LOCAL" /\ LimitRotation.owner_space r = "LOCAL") /\
   ("fixed" = "floating" -> out h1 = out host0 /\ constraints j1 = [])).
Proof. split; [reflexivity|]. apply setJointConstraints_installs. reflexivity. Defined.

(** On the active armature object, when its phobostype is not link,
    [setJointConstraints] only switches to pose mode and removes every
    constraint of the bone: no custom property is written, nothing is
    printed, and the object is left in pose mode.  (On an object without a
    pose, such as a mesh, the code raises instead; the model has no such
    objects.) *)
Theorem setJointConstraints_non_link (h : Host) (joint : Object) (T : string) (lower upper : Q) :
  active h = Some (name joint) -> phobostype joint <> "link" ->
  setJointConstraints h joint T lower upper = (set_mode h "POSE", set_constraints joint []).
Proof.
  intros _ Hl. unfold setJointConstraints. rewrite remove_all_nil.
  simpl. apply String.eqb_neq in Hl. rewrite Hl. reflexivity.
Qed.

Lemma setJointConstraints_non_link_witness :
  active host_armature0 = Some (name armature0) /\ phobostype armature0 <> "link" /\
  setJointConstraints host_armature0 armature0 "revolute" 0 1
  = (set_mode host_armature0 "POSE", set_constraints armature0 []).
Proof.
  assert (H : phobostype armature0 <> "link") by discriminate.
  split; [reflexivity|]. split; [exact H|].
  exact (setJointConstraints_non_link host_armature0 armature0 "revolute" 0 1 eq_refl H).
Defined.

(** [setJointConstraints] reads [lower] and [upper] only for the revolute
    and prismatic types: for any other type the result does not depend on
    them. *)
Theorem setJointConstraints_limits_unused (h : Host) (joint : Object) (T : string) (l1 u1 l2 u2 : Q) :
  T <> "revolute" -> T <> "prismatic" ->
  setJointConstraints h joint T l1 u1 = setJointConstraints h joint T l2 u2.
Proof.
  intros Hr Hp. unfold setJointConstraints, install.
  apply String.eqb_neq in Hr, Hp. rewrite Hr, Hp. reflexivity.
Qed.

Lemma setJointConstraints_limits_unused_witness :
  "fixed" <> "revolute" /\ "fixed" <> "prismatic" /\
  setJointConstraints host0 link0 "fixed" 0 0 = setJointConstraints host0 link0 "fixed" 1 2.
Proof.
  assert (H1 : "fixed" <> "revolute") by discriminate.
  assert (H2 : "fixed" <> "prismatic") by discriminate.
  split; [exact H1|]. split; [exact H2|].
  exact (setJointConstraints_limits_unused host0 link0 "fixed" 0 0 1 2 H1 H2).
Defined.

(** ** Further properties of the operators *)

Lemma install_active (h : Host) T lo up cs : active (fst (install h T lo up cs)) = active h.
Proof.
  unfold install.
  repeat match goal with |- context [String.eqb ?a ?b] => destruct (String.eqb a b) end;
  reflexivity.
Qed.

(** [setJointConstraints] keeps the object's identity and the active object. *)
Lemma setJointConstraints_keeps (h : Host) (joint : Object) T lo up :
  let '(h1, j1) := setJointConstraints h joint T lo up in
  active h1 = active h /\ name j1 = name joint /\ phobostype j1 = phobostype joint /\
  bone_vector j1 = bone_vector joint.
Proof.
  unfold setJointConstraints. simpl.
  destruct (String.eqb (phobostype joint) "link"); [|repeat split].
  destruct (install _ _ _ _ _) as [h1 cs] eqn:Ei.
  pose proof (install_active (set_mode h "POSE") T lo up (remove_all (constraints joint))) as Ha.
  rewrite Ei in Ha. simpl in Ha |- *. repeat split. exact Ha.
Qed.

Lemma not_in_joint_keys k :
  ~ In k joint_keys ->
  k <> "joint/type" /\ k <> "joint/maxeffort" /\ k <> "joint/maxvelocity" /\ k <> "joint/passive".
Proof. intros H. unfold joint_keys in H. simpl in H. intuition. Qed.

Lemma define_one_effect (self : DefineJointConstraints) lo up (h : Host) (o : Object) :
  let '(h1, o') := define_one self lo up h o in
  active h1 = Some (name o) /\ define_effect self o o'.
Proof.
  unfold define_one.
  destruct (setJointConstraints (set_active h (name o)) o (joint_type self) lo up) as [h2 o2] eqn:E.
  pose proof (setJointConstraints_keeps (set_active h (name o)) o (joint_type self) lo up) as K.
  pose proof (setJointConstraints_props (set_active h (name o)) o (joint_type self) lo up) as Hp.
  rewrite E in K, Hp. simpl in Hp. destruct K as (Ka & Kn & Kt & Kb).
  split; [exact Ka|].
  unfold define_effect.
  destruct (String.eqb (joint_type self) "fixed") eqn:Ef; simpl;
    destruct (passive self) eqn:Epa; unfold set_prop; simpl;
    (split; [exact Kn|]); (split; [exact Kt|]); (split; [exact Kb|]);
    (split; [intros Hl; apply String.eqb_eq in Hl; rewrite ?lookup_insert_ne by discriminate;
             rewrite Hp, Hl; apply lookup_insert_eq|]);
    (split; [intros Hl; apply String.eqb_neq in Hl; rewrite ?lookup_insert_ne by discriminate;
             rewrite Hp, Hl; reflexivity|]);
    (split; [intros Hnf; try (apply String.eqb_neq in Hnf; congruence);
             split; lookup_tac|]);
    (split; [intros Hpa; try discriminate; apply lookup_insert_eq|]);
    (split; [intros Hpa; try discriminate;
             rewrite ?lookup_insert_ne by discriminate; rewrite Hp;
             destruct (String.eqb (phobostype o) "link");
             rewrite ?lookup_insert_ne by discriminate; reflexivity|]);
    intros k Hk; apply not_in_joint_keys in Hk; destruct Hk as (H1 & H2 & H3 & H4);
    rewrite ?lookup_insert_ne by congruence; rewrite Hp;
    destruct (String.eqb (phobostype o) "link");
    rewrite ?lookup_insert_ne by congruence; reflexivity.
Qed.

(** [DefineJointConstraintsOperator.execute] on a selection of armature
    objects (the objects of this model; a selected mesh makes
    [setJointConstraints] raise) returns [FINISHED] and maps every selected
    object, in order, to one with the same name, type and bone; on links it
    stores [joint/type]; unless the type is fixed it stores
    [joint/maxeffort] and [joint/maxvelocity] on every selected armature,
    whether its phobostype is link or not; it sets [joint/passive] to True
    when passive and leaves it alone otherwise; it writes no other custom
    property.  The active object ends as the last selected one. *)
Theorem define_execute_effects (self : DefineJointConstraints) (h : Host) (selected : list Object) :
  let '(h1, links, status) := define_execute self h selected in
  status = "FINISHED" /\
  Forall2 (define_effect self) selected links /\
  active h1 = match rev selected with [] => active h | o :: _ => Some (name o) end.
Proof.
  unfold define_execute.
  destruct (if degrees self then _ else _) as [lo up].
  destruct (define_loop self lo up h selected) as [h' links] eqn:El.
  split; [reflexivity|].
  revert h h' links El. induction selected as [|o sel IH]; intros h h' links El.
  - simpl in El. injection El as <- <-. split; [constructor|reflexivity].
  - simpl in El.
    destruct (define_one self lo up h o) as [h1 o1] eqn:E1.
    pose proof (define_one_effect self lo up h o) as D. rewrite E1 in D. destruct D as [Da De].
    destruct (define_loop self lo up h1 sel) as [h2 links2] eqn:E2.
    injection El as <- <-. destruct (IH _ _ _ E2) as [F A].
    split; [constructor; assumption|].
    rewrite A. simpl. destruct (rev sel) as [|o' r]; simpl; [exact Da|reflexivity].
Qed.



(** [AttachMotorOperator.execute] leaves every selected object that is not
    a link unchanged; on a link it stores [motor/type] = [motortype] and
    changes nothing but custom properties under the six motor keys: name,
    type, bone direction, constraints and every other property stay. *)
Theorem attach_execute_frame (self : AttachMotor) (selected : list Object) :
  snd (attach_execute self selected) = "FINISHED" /\
  Forall2 (fun o o' =>
    (phobostype o <> "link" -> o' = o) /\
    name o' = name o /\ phobostype o' = phobostype o /\ bone_vector o' = bone_vector o /\
    constraints o' = constraints o /\
    (phobostype o = "link" -> props o' !! "motor/type" = Some (VStr (motortype self))) /\
    (forall k, ~ In k motor_keys -> props o' !! k = props o !! k))
    selected (fst (attach_execute self selected)).
Proof.
  split; [reflexivity|]. simpl.
  induction selected as [|o sel IH]; constructor; [|exact IH].
  unfold attach_one.
  destruct (String.eqb (phobostype o) "link") eqn:El.
  - apply String.eqb_eq in El.
    split; [intros Hn; contradiction|].
    destruct (String.eqb (motortype self) "PID"); unfold set_prop; simpl;
      (split; [reflexivity|]); (split; [reflexivity|]); (split; [reflexivity|]);
      (split; [reflexivity|]);
      (split; [intros _; apply lookup_insert_eq|]);
      intros k Hk; unfold motor_keys in Hk; simpl in Hk;
      rewrite ?lookup_insert_ne by (intros Heq; apply Hk; subst k; auto 10); reflexivity.
  - apply String.eqb_neq in El.
    split; [reflexivity|]. repeat (split; [reflexivity|]).
    split; [intros Hl; contradiction|]. reflexivity.
Qed.
